(** * paris: a pool of polling workers uploading files to a pluggable store

    A shallow embedding of [paris.py].  Python objects that are shared and
    mutated (the work queue, the cancellation [threading.Event], the
    [_client] attribute of a storage engine) live in an explicit store, the
    [World]; objects that are only read after construction (configurations,
    files, the factory's option table, workers) are plain values carrying
    the address of whatever mutable cell they own.  Calls into libraries
    (boto3, [time.sleep], [Thread.join]) leave an [event] in the world's
    trace, in program order. *)

From Stdlib Require Import ZArith QArith Ascii.
From stdpp Require Import gmap strings list fin_maps pretty.
Local Close Scope Q_scope.
Local Open Scope string_scope.

(** ** Python values, exceptions, results *)

(** The values that reach [str(...)] in [PropertiesConfig.put]: scalars,
    all of them hashable. *)
Inductive pyval :=
| PyNone
| PyBool (b : bool)
| PyInt (z : Z)
| PyStr (s : string).

(** [str(v)]. *)
Definition str (v : pyval) : string :=
  match v with
  | PyNone => "None"
  | PyBool true => "True"
  | PyBool false => "False"
  | PyInt z => pretty z
  | PyStr s => s
  end.

(** Truth value of a string: only the empty string is false. *)
Definition truthy (s : string) : bool :=
  match s with
  | EmptyString => false
  | String _ _ => true
  end.

(** [x or d] for [x] an optional string: [None] and [""] both give [d]. *)
Definition or_default {A} (x : option string) (d : A) : string + A :=
  match x with
  | Some s => if truthy s then inl s else inr d
  | None => inr d
  end.

(** The exceptions that occur: three builtins, the [AttributeError] of a
    method call on [None], and [UploadError] for whatever the S3 client
    raises when an upload does not go through. *)
Inductive exn :=
| NotImplementedError
| ValueError
| RuntimeError
| AttributeError
| UploadError.

Inductive result (A : Type) :=
| Return (a : A)
| Raise (e : exn).
Arguments Return {A} a.
Arguments Raise {A} e.

(** ** PropertiesConfig *)

Module PropertiesConfig.

Record t := { _conf : gmap string string }.

Definition __init__ : t := {| _conf := ∅ |}.

(** [self._conf.get(key, None)]: every stored key is a [str], so a key of
    another type finds nothing. *)
Definition get (self : t) (key : pyval) : option string :=
  match key with
  | PyStr k => _conf self !! k
  | _ => None
  end.

Definition put (self : t) (key value : pyval) : t :=
  {| _conf := <[str key := str value]> (_conf self) |}.

Definition from_properties (properties : list (pyval * pyval)) : t :=
  foldl (λ conf prop, put conf (PyStr (str prop.1)) (PyStr (str prop.2)))
        __init__ properties.

End PropertiesConfig.

(** ** File *)

Module File.

Record t := {
  _config : PropertiesConfig.t;
  _filepath : string;
  _filetype : pyval;
  _filename : string;
}.

Definition bucket (self : t) : option string :=
  let confkey := "files." ++ str (_filetype self) ++ ".bucket" in
  PropertiesConfig.get (_config self) (PyStr confkey).

Definition key (self : t) : string :=
  let confkey := "files." ++ str (_filetype self) ++ ".key" in
  match PropertiesConfig.get (_config self) (PyStr confkey) with
  | Some prefix => if truthy prefix then prefix ++ _filename self
                   else _filename self
  | None => _filename self
  end.

Definition filepath (self : t) : string := _filepath self.

End File.

(** ** The shared store *)

Definition loc := positive.

(** A client object returned by [boto3.client("s3", ...)]: its identity and
    the keyword arguments it was built with. *)
Record Client := {
  client_id : nat;
  aws_access_key_id : option string;
  aws_secret_access_key : option string;
  endpoint_url : option string;
}.

Inductive event :=
| EvOpen (engine : loc)
| EvBoto3Client (c : Client)
| EvClientClose (c : Client)
| EvUpload (c : Client) (Filename : string) (Bucket : option string)
           (Key : string) (ok : bool)
| EvQueueGet (q : loc) (item : option File.t)
| EvSleep (secs : Q)
| EvJoin (thread : nat) (timeout : Z).

(** [queues]: the contents of each [queue.Queue], head first (an address
    without entry is an empty queue); [tokens]: the [threading.Event]s that
    are set; [clients]: the [_client] attribute of each storage engine (no
    entry is [None]); [next_client]: the identity the next boto3 client
    gets. *)
Record World := {
  queues : gmap loc (list File.t);
  tokens : gset loc;
  clients : gmap loc Client;
  next_client : nat;
  trace : list event;
}.

Definition log (e : event) (w : World) : World :=
  {| queues := queues w; tokens := tokens w; clients := clients w;
     next_client := next_client w; trace := trace w ++ [e] |}.

Definition set_client (l : loc) (c : option Client) (w : World) : World :=
  {| queues := queues w; tokens := tokens w;
     clients := match c with
                | Some c => <[l := c]> (clients w)
                | None => delete l (clients w)
                end;
     next_client := next_client w; trace := trace w |}.

Definition set_queue (q : loc) (items : list File.t) (w : World) : World :=
  {| queues := <[q := items]> (queues w); tokens := tokens w;
     clients := clients w; next_client := next_client w; trace := trace w |}.

(** What the queue at [q] holds. *)
Definition items (q : loc) (w : World) : list File.t :=
  default [] (queues w !! q).

(** [queue.Queue.put(item)]. *)
Definition queue_put (q : loc) (item : File.t) (w : World) : World :=
  set_queue q (items q w ++ [item]) w.

(** [queue.Queue.get(block=False)], with [queue.Empty] as [None]. *)
Definition queue_get (q : loc) (w : World) : option File.t * World :=
  match items q w with
  | item :: rest => (Some item, log (EvQueueGet q (Some item)) (set_queue q rest w))
  | [] => (None, log (EvQueueGet q None) w)
  end.

(** [threading.Event.is_set()] and [threading.Event.set()]. *)
Definition is_set (tok : loc) (w : World) : bool := bool_decide (tok ∈ tokens w).

Definition token_set (tok : loc) (w : World) : World :=
  {| queues := queues w; tokens := {[tok]} ∪ tokens w; clients := clients w;
     next_client := next_client w; trace := trace w |}.

(** [time.sleep(secs)]: a negative length is a [ValueError]. *)
Definition sleep (secs : Q) (w : World) : result unit * World :=
  if Qle_bool 0 secs then (Return tt, log (EvSleep secs) w)
  else (Raise ValueError, w).

(** What the embedding takes from outside the repository: the builtins
    [int] and [float] on strings ([None] stands for their [ValueError]) and
    whether one call of the S3 client's [upload_file] goes through, which
    may depend on everything that happened before it. *)
Class Runtime := {
  int : string → option Z;
  float : string → option Q;
  s3_upload_file : list event → Client → string → option string → string → bool;
}.

(** ** SimpleStorage *)

Module SimpleStorage.

(** The object proper; its mutable [_client] attribute is the entry of the
    world's [clients] at [self]. *)
Record t := {
  self : loc;
  _config : PropertiesConfig.t;
  _identifier : string;
}.

(** [SimpleStorage(config, client)], allocated at [l]. *)
Definition __init__ (l : loc) (config : PropertiesConfig.t)
    (client : option Client) (w : World) : t * World :=
  ({| self := l; _config := config; _identifier := "s3" |}, set_client l client w).

Definition identifier (self : t) : string := _identifier self.

(** [self._client.upload_file(...)]: on a closed engine [_client] is [None],
    which has no such attribute. *)
Definition upload_file `{!Runtime} (self : t) (file : File.t) (w : World)
    : result unit * World :=
  match clients w !! SimpleStorage.self self with
  | None => (Raise AttributeError, w)
  | Some c =>
      let ok := s3_upload_file (trace w) c (File.filepath file)
                               (File.bucket file) (File.key file) in
      let w' := log (EvUpload c (File.filepath file) (File.bucket file)
                              (File.key file) ok) w in
      if ok then (Return tt, w') else (Raise UploadError, w')
  end.

Definition close (self : t) (w : World) : World :=
  match clients w !! SimpleStorage.self self with
  | Some c => set_client (SimpleStorage.self self) None (log (EvClientClose c) w)
  | None => w
  end.

(** [boto3.client("s3", ...)] with the three keyword arguments read from
    the configuration. *)
Definition boto3_client (config : PropertiesConfig.t) (w : World) : Client * World :=
  let c := {| client_id := next_client w;
              aws_access_key_id :=
                PropertiesConfig.get config (PyStr "aws_access_key_id");
              aws_secret_access_key :=
                PropertiesConfig.get config (PyStr "aws_secret_access_key");
              endpoint_url :=
                PropertiesConfig.get config (PyStr "endpoint_url") |} in
  (c, {| queues := queues w; tokens := tokens w; clients := clients w;
         next_client := S (next_client w);
         trace := trace w ++ [EvBoto3Client c] |}).

Definition open (self : t) (w : World) : World :=
  let w1 := close self (log (EvOpen (SimpleStorage.self self)) w) in
  let '(c, w2) := boto3_client (_config self) w1 in
  set_client (SimpleStorage.self self) (Some c) w2.

End SimpleStorage.

(** ** StorageFactory *)

Module StorageFactory.

Record t := {
  _config : PropertiesConfig.t;
  _options : gmap string SimpleStorage.t;
}.

(** [storage_options or {}]. *)
Definition __init__ (config : PropertiesConfig.t)
    (storage_options : option (gmap string SimpleStorage.t)) : t :=
  {| _config := config; _options := default ∅ storage_options |}.

Definition register (self : t) (storage_engine : SimpleStorage.t) : t :=
  {| _config := _config self;
     _options := <[SimpleStorage.identifier storage_engine := storage_engine]>
                   (_options self) |}.

(** [self._options.get(storage_type)]: the table's keys are identifiers, so
    the [None] of an absent [files.provider] finds nothing; an engine object
    is always true. *)
Definition build (self : t) (w : World) : result SimpleStorage.t * World :=
  let storage_type := PropertiesConfig.get (_config self) (PyStr "files.provider") in
  match storage_type ≫= (λ k, _options self !! k) with
  | Some option => (Return option, SimpleStorage.open option w)
  | None => (Raise NotImplementedError, w)
  end.

End StorageFactory.

(** ** Worker *)

(** How one pass through the loop of [Worker.run] ends: the loop goes on,
    the method returns because the token is set, or an exception leaves
    it. *)
Inductive outcome :=
| Continue
| Stopped
| Crashed (e : exn).

Module Worker.

Record t := {
  _config : PropertiesConfig.t;
  _worker_queue : loc;
  _cancellation_token : loc;
  _factory : StorageFactory.t;
  _uploader : SimpleStorage.t;
  _timeout : Q;
}.

(** [float(self._config.get("worker.timeout") or 0.2)]. *)
Definition timeout_of `{!Runtime} (config : PropertiesConfig.t) : option Q :=
  match or_default (PropertiesConfig.get config (PyStr "worker.timeout")) (1 # 5)%Q with
  | inl s => float s
  | inr d => Some d
  end.

Definition __init__ `{!Runtime} (config : PropertiesConfig.t) (worker_queue : loc)
    (cancellation_token : loc) (factory : StorageFactory.t) (w : World)
    : result t * World :=
  match StorageFactory.build factory w with
  | (Raise e, w') => (Raise e, w')
  | (Return uploader, w') =>
      match timeout_of config with
      | None => (Raise ValueError, w')
      | Some timeout =>
          (Return {| _config := config; _worker_queue := worker_queue;
                     _cancellation_token := cancellation_token;
                     _factory := factory; _uploader := uploader;
                     _timeout := timeout |}, w')
      end
  end.

(** The test of the [while] and, when it passes, one execution of its
    body.  A [File] object is always true, so [if item:] asks only whether
    the queue gave one. *)
Definition iteration `{!Runtime} (self : t) (w : World) : outcome * World :=
  if is_set (_cancellation_token self) w then (Stopped, w)
  else
    let '(item, w1) := queue_get (_worker_queue self) w in
    let '(r, w2) := match item with
                    | Some item => SimpleStorage.upload_file (_uploader self) item w1
                    | None => (Return tt, w1)
                    end in
    match r with
    | Raise e => (Crashed e, w2)
    | Return _ =>
        match sleep (_timeout self) w2 with
        | (Raise e, w3) => (Crashed e, w3)
        | (Return _, w3) => (Continue, w3)
        end
    end.

(** [run], cut off after [fuel] passes: [Continue] says that the loop is
    still going when the fuel is spent. *)
Fixpoint run `{!Runtime} (fuel : nat) (self : t) (w : World) : outcome * World :=
  match fuel with
  | O => (Continue, w)
  | S fuel =>
      match iteration self w with
      | (Continue, w') => run fuel self w'
      | stop => stop
      end
  end.

End Worker.

(** ** Threads *)

(** A [threading.Thread] whose target is [worker.run]: created, started and
    running, returned from [run], or ended by an exception raised in it. *)
Inductive thread_state :=
| Initial
| Alive
| Returned
| Died (e : exn).

Module Thread.

Record t := {
  target : Worker.t;
  state : thread_state;
}.

Definition with_state (s : thread_state) (th : t) : t :=
  {| target := target th; state := s |}.

(** [Thread.start()]: a thread starts once. *)
Definition start (th : t) : result t :=
  match state th with
  | Initial => Return (with_state Alive th)
  | _ => Raise RuntimeError
  end.

(** A running thread makes one pass through its worker's loop; the other
    threads of the pool are not part of it. *)
Definition step `{!Runtime} (th : t) (w : World) : t * World :=
  match state th with
  | Alive =>
      match Worker.iteration (target th) w with
      | (Continue, w') => (th, w')
      | (Stopped, w') => (with_state Returned th, w')
      | (Crashed e, w') => (with_state (Died e) th, w')
      end
  | _ => (th, w)
  end.

End Thread.

(** The pool's thread [i] gets the processor for one pass. *)
Definition pool_step `{!Runtime} (i : nat) (threads : list Thread.t) (w : World)
    : list Thread.t * World :=
  match threads !! i with
  | Some th => let '(th', w') := Thread.step th w in (<[i := th']> threads, w')
  | None => (threads, w)
  end.

(** A schedule names, in order, the threads that get the processor. *)
Fixpoint pool_run `{!Runtime} (schedule : list nat) (threads : list Thread.t)
    (w : World) : list Thread.t * World :=
  match schedule with
  | [] => (threads, w)
  | i :: schedule =>
      let '(threads', w') := pool_step i threads w in
      pool_run schedule threads' w'
  end.

(** ** Manager *)

Module Manager.

Record t := {
  _config : PropertiesConfig.t;
  _worker_queue : loc;
  _cancellation_token : loc;
  _factory : StorageFactory.t;
  _workers : list Thread.t;
  _number_of_threads : Z;
  _join_timeout : Z;
}.

(** [int(config.get(key) or default)]. *)
Definition int_of `{!Runtime} (config : PropertiesConfig.t) (key : string)
    (default : Z) : option Z :=
  match or_default (PropertiesConfig.get config (PyStr key)) default with
  | inl s => int s
  | inr d => Some d
  end.

Definition __init__ `{!Runtime} (config : PropertiesConfig.t) (worker_queue : loc)
    (cancellation_token : loc) (factory : StorageFactory.t) : result t :=
  match int_of config "worker.threads" 1 with
  | None => Raise ValueError
  | Some number_of_threads =>
      match int_of config "worker.join.timeout" 60 with
      | None => Raise ValueError
      | Some join_timeout =>
          Return {| _config := config; _worker_queue := worker_queue;
                    _cancellation_token := cancellation_token;
                    _factory := factory; _workers := [];
                    _number_of_threads := number_of_threads;
                    _join_timeout := join_timeout |}
      end
  end.

Definition with_workers (workers : list Thread.t) (self : t) : t :=
  {| _config := _config self; _worker_queue := _worker_queue self;
     _cancellation_token := _cancellation_token self;
     _factory := _factory self; _workers := workers;
     _number_of_threads := _number_of_threads self;
     _join_timeout := _join_timeout self |}.

(** The [for] of [prepare], [n] rounds of it: an exception in a worker's
    constructor leaves the threads appended so far. *)
Fixpoint prepare_loop `{!Runtime} (n : nat) (self : t) (w : World)
    : result unit * t * World :=
  match n with
  | O => (Return tt, self, w)
  | S n =>
      match Worker.__init__ (_config self) (_worker_queue self)
                            (_cancellation_token self) (_factory self) w with
      | (Raise e, w') => (Raise e, self, w')
      | (Return worker, w') =>
          let worker_thread := {| Thread.target := worker; Thread.state := Initial |} in
          prepare_loop n (with_workers (_workers self ++ [worker_thread]) self) w'
      end
  end.

(** [range(0, n)] is empty for [n <= 0]. *)
Definition prepare `{!Runtime} (self : t) (w : World) : result unit * t * World :=
  prepare_loop (Z.to_nat (_number_of_threads self)) (with_workers [] self) w.

Fixpoint start_loop (todo : list Thread.t) (done : list Thread.t)
    : result unit * list Thread.t :=
  match todo with
  | [] => (Return tt, done)
  | worker_thread :: todo =>
      match Thread.start worker_thread with
      | Raise e => (Raise e, (done ++ worker_thread :: todo)%list)
      | Return th => start_loop todo (done ++ [th])
      end
  end.

Definition start (self : t) : result unit * t :=
  let '(r, workers) := start_loop (_workers self) [] in
  (r, with_workers workers self).

(** [Thread.join(timeout)] of the pool's thread [i]: joining a thread that
    was never started is a [RuntimeError]; otherwise the call returns
    [None] whether the thread ended or the timeout ran out.  While the
    caller waits the pool's threads run on: [waiting i] is the schedule
    they follow during this wait. *)
Definition join `{!Runtime} (waiting : nat → list nat) (i : nat) (timeout : Z)
    (threads : list Thread.t) (w : World) : result unit * list Thread.t * World :=
  match Thread.state <$> threads !! i with
  | Some Initial => (Raise RuntimeError, threads, w)
  | _ =>
      let '(threads', w') := pool_run (waiting i) threads (log (EvJoin i timeout) w) in
      (Return tt, threads', w')
  end.

Fixpoint stop_loop `{!Runtime} (waiting : nat → list nat) (ids : list nat)
    (timeout : Z) (threads : list Thread.t) (w : World)
    : result unit * list Thread.t * World :=
  match ids with
  | [] => (Return tt, threads, w)
  | i :: ids =>
      match join waiting i timeout threads w with
      | (Raise e, threads', w') => (Raise e, threads', w')
      | (Return _, threads', w') => stop_loop waiting ids timeout threads' w'
      end
  end.

Definition stop `{!Runtime} (waiting : nat → list nat) (self : t) (w : World)
    : result unit * t * World :=
  let '(r, workers, w') :=
    stop_loop waiting (seq 0 (length (_workers self))) (_join_timeout self)
              (_workers self) w in
  (r, with_workers workers self, w').

End Manager.

(** ** Reading worlds and traces *)


(** The same, as the configuration of the engine prescribes it. *)
Definition configured (e : SimpleStorage.t)
    : option string * option string * option string :=
  (PropertiesConfig.get (SimpleStorage._config e) (PyStr "aws_access_key_id"),
   PropertiesConfig.get (SimpleStorage._config e) (PyStr "aws_secret_access_key"),
   PropertiesConfig.get (SimpleStorage._config e) (PyStr "endpoint_url")).

Definition is_open_of (l : loc) (ev : event) : bool :=
  match ev with
  | EvOpen l' => bool_decide (l' = l)
  | _ => false
  end.

(** How often [open()] was called on the engine at [l]. *)
Definition opens (l : loc) (tr : list event) : nat :=
  length (List.filter (is_open_of l) tr).

Definition is_upload (ev : event) : bool :=
  match ev with
  | EvUpload _ _ _ _ _ => true
  | _ => false
  end.

Definition is_join (ev : event) : bool :=
  match ev with
  | EvJoin _ _ => true
  | _ => false
  end.

(** The [join] calls of a trace, in order. *)
Definition joins (tr : list event) : list event := List.filter is_join tr.

(** The [upload_file] calls of a trace, in order. *)
Definition uploads (tr : list event) : list event := List.filter is_upload tr.





(** ** Two sentences of the specification, as it words them *)

(** After a pass in which [upload_file] raised, the worker is still in
    its loop. *)
Definition continues_after_failed_transfer `{!Runtime} : Prop :=
  ∀ (th : Thread.t) (w : World) (item : File.t) (rest : list File.t) (e : exn),
    Thread.state th = Alive →
    Worker._cancellation_token (Thread.target th) ∉ tokens w →
    items (Worker._worker_queue (Thread.target th)) w = item :: rest →
    (SimpleStorage.upload_file (Worker._uploader (Thread.target th)) item
       (queue_get (Worker._worker_queue (Thread.target th)) w).2).1 = Raise e →
    Thread.state (Thread.step th w).1 = Alive.


(** ** A runtime to compute with

    Decimal [int] and [float] literals with an optional sign, and a store
    that takes an upload exactly when the file has a bucket. *)

Definition digit (c : ascii) : option Z :=
  let n := (Z.of_N (N_of_ascii c) - 48)%Z in
  if ((0 <=? n) && (n <=? 9))%Z then Some n else None.

Fixpoint digits (acc : Z) (s : string) : option Z :=
  match s with
  | EmptyString => Some acc
  | String c s => d ← digit c; digits (10 * acc + d) s
  end.

Definition signed {A} (neg : A → A) (parse : string → option A) (s : string)
    : option A :=
  match s with
  | String "-" s => neg <$> parse s
  | String "+" s => parse s
  | _ => parse s
  end.

Definition decimal_int (s : string) : option Z :=
  match s with
  | EmptyString => None
  | String _ _ => digits 0 s
  end.

Fixpoint split_point (s : string) : string * option string :=
  match s with
  | EmptyString => (EmptyString, None)
  | String "." s => (EmptyString, Some s)
  | String c s => let '(i, f) := split_point s in (String c i, f)
  end.

Definition decimal_float (s : string) : option Q :=
  match split_point s with
  | (i, None) => inject_Z <$> decimal_int i
  | (i, Some f) =>
      n ← decimal_int (i ++ f);
      Some (n # Pos.pow 10 (Pos.of_nat (String.length f)))%Q
  end.

#[export] Instance decimal_runtime : Runtime := {
  int := signed Z.opp decimal_int;
  float := signed Qopp decimal_float;
  s3_upload_file := λ _ _ _ Bucket _, bool_decide (is_Some Bucket);
}.

(** ** The program of [__main__] *)

Definition configuration : PropertiesConfig.t :=
  PropertiesConfig.from_properties
    [ (PyStr "aws_access_key_id", PyStr "miniobomt1me");
      (PyStr "aws_secret_access_key", PyStr "miniobomt1me");
      (PyStr "endpoint_url", PyStr "http://localhost:9000");
      (PyStr "files.upload.bucket", PyStr "bom");
      (PyStr "files.upload.key", PyStr "upload/");
      (PyStr "files.provider", PyStr "s3");
      (PyStr "worker.threads", PyStr "7");
      (PyStr "worker.join.timeout", PyStr "60");
      (PyStr "worker.timeout", PyStr "0.05") ].

Definition file_upload_queue : loc := 1%positive.
Definition file_upload_cancellation_token : loc := 2%positive.

(** Nothing queued, no token set, no client made, nothing happened. *)
Definition boot : World :=
  {| queues := ∅; tokens := ∅; clients := ∅; next_client := 0; trace := [] |}.

Definition storage : SimpleStorage.t :=
  (SimpleStorage.__init__ 3%positive configuration None boot).1.

Definition storage_factory : StorageFactory.t :=
  StorageFactory.register (StorageFactory.__init__ configuration None) storage.

(** Two engines that differ from [storage] in address and identifier. *)
Definition engine_a : SimpleStorage.t :=
  {| SimpleStorage.self := 4%positive; SimpleStorage._config := configuration;
     SimpleStorage._identifier := "a" |}.

Definition engine_b : SimpleStorage.t :=
  {| SimpleStorage.self := 5%positive; SimpleStorage._config := configuration;
     SimpleStorage._identifier := "b" |}.

(** The worker that [prepare] makes in [__main__], and the world its
    constructor leaves. *)
Definition worker : Worker.t :=
  {| Worker._config := configuration;
     Worker._worker_queue := file_upload_queue;
     Worker._cancellation_token := file_upload_cancellation_token;
     Worker._factory := storage_factory;
     Worker._uploader := storage;
     Worker._timeout := (5 # 100)%Q |}.

Definition ready : World := SimpleStorage.open storage boot.

(** A file of a category for which nothing is configured: it has no
    bucket. *)
Definition stray (filename : string) : File.t :=
  {| File._config := configuration; File._filepath := "./carne_asada.dat";
     File._filetype := PyStr "download"; File._filename := filename |}.

Definition carne_asada (config : PropertiesConfig.t) (filename : string) : File.t :=
  {| File._config := config; File._filepath := "./carne_asada.dat";
     File._filetype := PyStr "upload"; File._filename := filename |}.

(** Two files are queued, the first without bucket, and two threads of
    the pool are running. *)
Definition busy : World :=
  queue_put file_upload_queue (carne_asada configuration "1.dat")
    (queue_put file_upload_queue (stray "0.dat") ready).

Definition pool : list Thread.t :=
  [ {| Thread.target := worker; Thread.state := Alive |};
    {| Thread.target := worker; Thread.state := Alive |} ].

(** The world after the pass in which the first thread takes the file
    without bucket and the store refuses it. *)
Definition refused : World :=
  (SimpleStorage.upload_file storage (stray "0.dat")
     (queue_get file_upload_queue busy).2).2.

(** The manager of [__main__], with its seven threads. *)
Definition manager : Manager.t :=
  {| Manager._config := configuration;
     Manager._worker_queue := file_upload_queue;
     Manager._cancellation_token := file_upload_cancellation_token;
     Manager._factory := storage_factory;
     Manager._workers := [];
     Manager._number_of_threads := 7;
     Manager._join_timeout := 60 |}.


(** A sequence of [put]s on a new configuration. *)
Definition puts (kvs : list (pyval * pyval)) : PropertiesConfig.t :=
  foldl (λ conf kv, PropertiesConfig.put conf kv.1 kv.2)
        PropertiesConfig.__init__ kvs.

(** The last character of [s], or [d] when [s] is empty. *)
Fixpoint last_char (s : string) (d : ascii) : ascii :=
  match s with
  | EmptyString => d
  | String c s => last_char s c
  end.

Definition is_client_made (ev : event) : bool :=
  match ev with
  | EvBoto3Client _ => true
  | _ => false
  end.

Definition is_client_closed (ev : event) : bool :=
  match ev with
  | EvClientClose _ => true
  | _ => false
  end.

(** How many clients [boto3.client] made, and how many were closed. *)
Definition made (tr : list event) : nat := length (List.filter is_client_made tr).
Definition closed (tr : list event) : nat := length (List.filter is_client_closed tr).


(** What a worker's pass leaves alone: the tokens, the clients of the
    engines and the supply of new ones, the count of clients made and
    closed and of [open()] calls; and it only takes from the head of a
    queue, so that what a queue holds afterwards is a suffix of what it
    held. *)
Definition undisturbed (w w' : World) : Prop :=
  tokens w' = tokens w ∧ clients w' = clients w ∧
  next_client w' = next_client w ∧
  made (trace w') = made (trace w) ∧ closed (trace w') = closed (trace w) ∧
  (∀ l, opens l (trace w') = opens l (trace w)) ∧
  ∀ q, items q w' `suffix_of` items q w.



(** A thread after a pass under a set token. *)
Definition settle (th : Thread.t) : Thread.t :=
  match Thread.state th with
  | Alive => Thread.with_state Returned th
  | _ => th
  end.


(** Three files of the configured category are queued. *)
Definition loaded : World :=
  queue_put file_upload_queue (carne_asada configuration "2.dat")
    (queue_put file_upload_queue (carne_asada configuration "1.dat")
       (queue_put file_upload_queue (carne_asada configuration "0.dat") ready)).

(** A manager that still has two threads from before, over a factory in
    which nothing is registered. *)
Definition orphaned : Manager.t :=
  {| Manager._config := configuration;
     Manager._worker_queue := file_upload_queue;
     Manager._cancellation_token := file_upload_cancellation_token;
     Manager._factory := StorageFactory.__init__ configuration None;
     Manager._workers := pool;
     Manager._number_of_threads := 2;
     Manager._join_timeout := 60 |}.

(** The same with [worker.threads] at -3. *)
Definition unmanned : Manager.t :=
  {| Manager._config := configuration;
     Manager._worker_queue := file_upload_queue;
     Manager._cancellation_token := file_upload_cancellation_token;
     Manager._factory := StorageFactory.__init__ configuration None;
     Manager._workers := pool;
     Manager._number_of_threads := -3;
     Manager._join_timeout := 60 |}.

(** Threads in state [s] throughout. *)
Definition all_in (s : thread_state) (threads : list Thread.t) : Prop :=
  Forall (λ th, Thread.state th = s) threads.

(** Threads whose token is set in [w]. *)
Definition cancelled (threads : list Thread.t) (w : World) : Prop :=
  Forall (λ th, Worker._cancellation_token (Thread.target th) ∈ tokens w) threads.

(** The configuration of [__main__] with the three worker keys blank. *)
Definition blank : PropertiesConfig.t :=
  PropertiesConfig.put
    (PropertiesConfig.put
       (PropertiesConfig.put configuration (PyStr "worker.threads") (PyStr ""))
       (PyStr "worker.join.timeout") (PyStr ""))
    (PyStr "worker.timeout") (PyStr "").

(** A thread of [worker] as [prepare] makes it. *)
Definition fresh : Thread.t :=
  {| Thread.target := worker; Thread.state := Initial |}.

(** The manager of [__main__] with two threads, prepared but not started. *)
Definition prepared_pair : Manager.t :=
  {| Manager._config := configuration;
     Manager._worker_queue := file_upload_queue;
     Manager._cancellation_token := file_upload_cancellation_token;
     Manager._factory := storage_factory;
     Manager._workers := [fresh; fresh];
     Manager._number_of_threads := 2;
     Manager._join_timeout := 60 |}.

(** ** Configuration and files *)

Lemma truthy_false (s : string) : truthy s = false → s = "".
Proof. by destruct s. Qed.

Lemma get_put_eq (c : PropertiesConfig.t) (k v : pyval) :
  PropertiesConfig.get (PropertiesConfig.put c k v) (PyStr (str k)) = Some (str v).
Proof. cbn. apply lookup_insert_eq. Qed.

Lemma get_put_ne (c : PropertiesConfig.t) (k v key : pyval) :
  PyStr (str k) ≠ key →
  PropertiesConfig.get (PropertiesConfig.put c k v) key = PropertiesConfig.get c key.
Proof.
  intros Hne. destruct key as [| | |s]; try reflexivity.
  cbn. apply lookup_insert_ne. congruence.
Qed.

Lemma get_foldl_put_absent (kvs : list (pyval * pyval)) (key : pyval) :
  ∀ c : PropertiesConfig.t,
    (∀ kv, kv ∈ kvs → PyStr (str kv.1) ≠ key) →
    PropertiesConfig.get
      (foldl (λ conf kv, PropertiesConfig.put conf kv.1 kv.2) c kvs) key
    = PropertiesConfig.get c key.
Proof.
  induction kvs as [|kv kvs IH]; intros c Hne; [reflexivity|].
  cbn [foldl]. rewrite IH.
  - apply get_put_ne, Hne. by left.
  - intros kv' Hin. apply Hne. by right.
Qed.

Lemma get_init (key : pyval) :
  PropertiesConfig.get PropertiesConfig.__init__ key = None.
Proof. by destruct key. Qed.

Lemma get_puts_absent (kvs : list (pyval * pyval)) (key : pyval) :
  (∀ kv, kv ∈ kvs → PyStr (str kv.1) ≠ key) →
  PropertiesConfig.get (puts kvs) key = None.
Proof.
  intros Hne. unfold puts. rewrite get_foldl_put_absent by done. apply get_init.
Qed.

Lemma int_of_absent `{!Runtime} (config : PropertiesConfig.t) (key : string) (d : Z) :
  PropertiesConfig.get config (PyStr key) = None →
  Manager.int_of config key d = Some d.
Proof. intros Hget. unfold Manager.int_of. by rewrite Hget. Qed.

Lemma timeout_of_absent `{!Runtime} (config : PropertiesConfig.t) :
  PropertiesConfig.get config (PyStr "worker.timeout") = None →
  Worker.timeout_of config = Some (1 # 5)%Q.
Proof. intros Hget. unfold Worker.timeout_of. by rewrite Hget. Qed.

(** C10.  After [put(key, value)] a [get] of [str(key)] gives [str(value)]:
    key and value are both stored as strings.  A key that no [put] stored
    gives [None]; [get] raises in no case.  With [None] for
    [worker.threads], [worker.join.timeout] and [worker.timeout], the
    [or] in the constructors of [Manager] and [Worker] selects 1, 60 and
    0.2, and no string is parsed. *)
Theorem put_get_str_and_absent_defaults `{!Runtime} :
  (∀ (c : PropertiesConfig.t) (key value : pyval),
     PropertiesConfig.get (PropertiesConfig.put c key value) (PyStr (str key))
     = Some (str value)) ∧
  (∀ (kvs : list (pyval * pyval)) (key : pyval),
     (∀ kv, kv ∈ kvs → PyStr (str kv.1) ≠ key) →
     PropertiesConfig.get (puts kvs) key = None) ∧
  (∀ (config : PropertiesConfig.t) (q tok : loc) (factory : StorageFactory.t),
     PropertiesConfig.get config (PyStr "worker.threads") = None →
     PropertiesConfig.get config (PyStr "worker.join.timeout") = None →
     ∃ m, Manager.__init__ config q tok factory = Return m ∧
          Manager._number_of_threads m = 1%Z ∧
          Manager._join_timeout m = 60%Z) ∧
  (∀ (config : PropertiesConfig.t) (q tok : loc) (factory : StorageFactory.t)
     (w : World) (uploader : SimpleStorage.t) (w' : World),
     PropertiesConfig.get config (PyStr "worker.timeout") = None →
     StorageFactory.build factory w = (Return uploader, w') →
     ∃ worker, Worker.__init__ config q tok factory w = (Return worker, w') ∧
               Worker._timeout worker = (1 # 5)%Q).
Proof.
  split; [exact get_put_eq|].
  split; [exact get_puts_absent|].
  split.
  - intros config q tok factory Hthreads Hjoin.
    unfold Manager.__init__.
    rewrite (int_of_absent _ _ _ Hthreads), (int_of_absent _ _ _ Hjoin).
    eexists. split; [reflexivity|]. by split.
  - intros config q tok factory w uploader w' Htimeout Hbuild.
    unfold Worker.__init__.
    rewrite Hbuild, (timeout_of_absent _ Htimeout).
    eexists. split; reflexivity.
Qed.

(** An integer key and a boolean value are stored under their strings; a
    configuration that was only given the provider has none of the three
    worker keys. *)
Lemma put_get_str_and_absent_defaults_witness :
  PropertiesConfig.get
    (PropertiesConfig.put PropertiesConfig.__init__ (PyInt 7) (PyBool true))
    (PyStr "7") = Some "True" ∧
  PropertiesConfig.get (puts [(PyStr "files.provider", PyStr "s3")]) (PyInt 7) = None ∧
  (∃ m, Manager.__init__ (puts [(PyStr "files.provider", PyStr "s3")])
          file_upload_queue file_upload_cancellation_token storage_factory
        = Return m ∧
        Manager._number_of_threads m = 1%Z ∧ Manager._join_timeout m = 60%Z) ∧
  (∃ worker,
     Worker.__init__ (puts [(PyStr "files.provider", PyStr "s3")])
       file_upload_queue file_upload_cancellation_token storage_factory boot
     = (Return worker, SimpleStorage.open storage boot) ∧
     Worker._timeout worker = (1 # 5)%Q).
Proof.
  destruct (@put_get_str_and_absent_defaults decimal_runtime)
    as (Hput & Habsent & Hmanager & Hworker).
  split; [exact (Hput PropertiesConfig.__init__ (PyInt 7) (PyBool true))|].
  split.
  { apply Habsent. intros kv Hin.
    apply list_elem_of_singleton in Hin. subst kv. discriminate. }
  split.
  { apply Hmanager; reflexivity. }
  { apply (Hworker _ _ _ _ boot storage); reflexivity. }
Defined.

Lemma key_prefix (f : File.t) (prefix : string) :
  PropertiesConfig.get (File._config f)
    (PyStr ("files." ++ str (File._filetype f) ++ ".key")) = Some prefix →
  File.key f = prefix ++ File._filename f.
Proof.
  intros Hget. unfold File.key. rewrite Hget.
  destruct (truthy prefix) eqn:Hp; [reflexivity|].
  by rewrite (truthy_false _ Hp).
Qed.

Lemma key_bare (f : File.t) :
  PropertiesConfig.get (File._config f)
    (PyStr ("files." ++ str (File._filetype f) ++ ".key")) = None →
  File.key f = File._filename f.
Proof. intros Hget. unfold File.key. by rewrite Hget. Qed.

(** C3.  The key of a file is the prefix configured under
    [files.<category>.key] followed by the bare filename, and the bare
    filename when that entry is absent.  For category [upload] and
    filename [x.dat]: [upload/x.dat] under the prefix [upload/], [x.dat]
    without a prefix. *)
Theorem key_is_prefix_and_filename :
  (∀ f : File.t,
     File.key f =
     match PropertiesConfig.get (File._config f)
             (PyStr ("files." ++ str (File._filetype f) ++ ".key")) with
     | Some prefix => prefix ++ File._filename f
     | None => File._filename f
     end) ∧
  (∀ (config : PropertiesConfig.t) (filepath : string),
     PropertiesConfig.get config (PyStr "files.upload.key") = Some "upload/" →
     File.key {| File._config := config; File._filepath := filepath;
                 File._filetype := PyStr "upload"; File._filename := "x.dat" |}
     = "upload/x.dat") ∧
  (∀ (config : PropertiesConfig.t) (filepath : string),
     PropertiesConfig.get config (PyStr "files.upload.key") = None →
     File.key {| File._config := config; File._filepath := filepath;
                 File._filetype := PyStr "upload"; File._filename := "x.dat" |}
     = "x.dat").
Proof.
  split; [|split].
  - intros f.
    destruct (PropertiesConfig.get _ _) as [prefix|] eqn:Hget.
    + by apply key_prefix.
    + by apply key_bare.
  - intros config filepath Hget. by rewrite (key_prefix _ "upload/").
  - intros config filepath Hget. by rewrite key_bare.
Qed.

(** The configuration of [__main__] has the prefix [upload/]; a new
    configuration has none. *)
Lemma key_is_prefix_and_filename_witness :
  File.key (carne_asada configuration "x.dat") = "upload/x.dat" ∧
  File.key (carne_asada PropertiesConfig.__init__ "x.dat") = "x.dat".
Proof.
  destruct key_is_prefix_and_filename as (_ & Hprefix & Hbare).
  split.
  - apply (Hprefix configuration "./carne_asada.dat"). reflexivity.
  - apply (Hbare PropertiesConfig.__init__ "./carne_asada.dat"). reflexivity.
Defined.

(** ** Storage engines *)

Lemma open_on_open (e : SimpleStorage.t) (w : World) (c : Client) :
  clients w !! SimpleStorage.self e = Some c →
  SimpleStorage.open e w =
  let fresh := {| client_id := next_client w;
                  aws_access_key_id := (configured e).1.1;
                  aws_secret_access_key := (configured e).1.2;
                  endpoint_url := (configured e).2 |} in
  {| queues := queues w; tokens := tokens w;
     clients := <[SimpleStorage.self e := fresh]> (clients w);
     next_client := S (next_client w);
     trace := trace w ++ [EvOpen (SimpleStorage.self e); EvClientClose c;
                          EvBoto3Client fresh] |}.
Proof.
  intros Hc. unfold SimpleStorage.open, SimpleStorage.close. cbn.
  rewrite Hc. cbn. unfold set_client. cbn. rewrite insert_delete_eq.
  f_equal. by rewrite <- !app_assoc.
Qed.

Lemma open_on_closed (e : SimpleStorage.t) (w : World) :
  clients w !! SimpleStorage.self e = None →
  SimpleStorage.open e w =
  let fresh := {| client_id := next_client w;
                  aws_access_key_id := (configured e).1.1;
                  aws_secret_access_key := (configured e).1.2;
                  endpoint_url := (configured e).2 |} in
  {| queues := queues w; tokens := tokens w;
     clients := <[SimpleStorage.self e := fresh]> (clients w);
     next_client := S (next_client w);
     trace := trace w ++ [EvOpen (SimpleStorage.self e); EvBoto3Client fresh] |}.
Proof.
  intros Hc. unfold SimpleStorage.open, SimpleStorage.close. cbn.
  rewrite Hc. cbn. unfold set_client. cbn.
  f_equal. by rewrite <- !app_assoc.
Qed.



Lemma close_closes (e : SimpleStorage.t) (w : World) :
  clients (SimpleStorage.close e w) !! SimpleStorage.self e = None.
Proof.
  unfold SimpleStorage.close.
  destruct (clients w !! SimpleStorage.self e) as [c|] eqn:Hc; [|done].
  cbn. apply lookup_delete_eq.
Qed.



(** ** The factory *)

Lemma opens_app (l : loc) (tr tr' : list event) :
  opens l (tr ++ tr') = opens l tr + opens l tr'.
Proof. unfold opens. by rewrite List.filter_app, length_app. Qed.




(** C4.  When the option table has no entry under the configured
    [files.provider] (or the key itself is absent), [build()] raises
    [NotImplementedError], the exception the source uses for an
    unsupported backend, and hands back the world it was given: no
    [open()], no client made, nothing added to the trace. *)
Theorem build_unregistered_raises (f : StorageFactory.t) (w : World) :
  (∀ name,
     PropertiesConfig.get (StorageFactory._config f) (PyStr "files.provider")
     = Some name →
     StorageFactory._options f !! name = None) →
  StorageFactory.build f w = (Raise NotImplementedError, w) ∧
  ∀ l, opens l (trace (StorageFactory.build f w).2) = opens l (trace w).
Proof.
  intros Hnone.
  assert (StorageFactory.build f w = (Raise NotImplementedError, w)) as Hbuild.
  { unfold StorageFactory.build.
    destruct (PropertiesConfig.get _ _) as [name|] eqn:Hprovider; cbn.
    - by rewrite (Hnone name).
    - reflexivity. }
  split; [exact Hbuild|]. intros l. by rewrite Hbuild.
Qed.

(** A factory in which nothing was registered, under the configuration of
    [__main__], which asks for [s3]. *)
Lemma build_unregistered_raises_witness :
  StorageFactory.build (StorageFactory.__init__ configuration None) boot
  = (Raise NotImplementedError, boot).
Proof.
  apply (build_unregistered_raises (StorageFactory.__init__ configuration None) boot).
  intros name Hname. reflexivity.
Defined.



(** ** One worker *)

Section Passes.
Context `{!Runtime}.
Implicit Types (self : Worker.t) (w : World).

Lemma is_set_true tok w : tok ∈ tokens w → is_set tok w = true.
Proof. intros Hin. unfold is_set. by rewrite bool_decide_eq_true_2. Qed.

Lemma is_set_false tok w : tok ∉ tokens w → is_set tok w = false.
Proof. intros Hin. unfold is_set. by rewrite bool_decide_eq_false_2. Qed.

Lemma iteration_cancelled self w :
  Worker._cancellation_token self ∈ tokens w →
  Worker.iteration self w = (Stopped, w).
Proof. intros Hin. unfold Worker.iteration. by rewrite is_set_true. Qed.



Lemma queue_get_cons q w item rest :
  items q w = item :: rest →
  queue_get q w = (Some item, log (EvQueueGet q (Some item)) (set_queue q rest w)).
Proof. intros Hq. unfold queue_get. by rewrite Hq. Qed.


Example negative_sleep_is_refused :
  sleep (-1 # 1)%Q boot = (Raise ValueError, boot).
Proof. reflexivity. Qed.




End Passes.

Example worker_of_main :
  Worker.__init__ configuration file_upload_queue file_upload_cancellation_token
                  storage_factory boot
  = (Return worker, ready).
Proof. reflexivity. Qed.

Section WorkerLoop.
Context `{!Runtime}.

(** C5.  With the token set before the first pass, [run] returns in that
    pass and leaves the world as it found it: nothing taken from the
    queue, no [upload_file], not even one sleep of the poll interval.  A
    thread running it goes to [Returned] at its first step. *)
Theorem cancelled_worker_does_nothing (self : Worker.t) (w : World) (fuel : nat) :
  Worker._cancellation_token self ∈ tokens w →
  Worker.run (S fuel) self w = (Stopped, w) ∧
  Thread.step {| Thread.target := self; Thread.state := Alive |} w
  = ({| Thread.target := self; Thread.state := Returned |}, w) ∧
  uploads (trace (Worker.run (S fuel) self w).2) = uploads (trace w) ∧
  items (Worker._worker_queue self) (Worker.run (S fuel) self w).2
  = items (Worker._worker_queue self) w.
Proof.
  intros Htok.
  assert (Worker.run (S fuel) self w = (Stopped, w)) as Hrun.
  { cbn [Worker.run]. by rewrite iteration_cancelled. }
  split; [exact Hrun|]. split.
  - unfold Thread.step. cbn. by rewrite iteration_cancelled.
  - by rewrite Hrun.
Qed.


End WorkerLoop.

(** The worker of [__main__] with the token set before it runs. *)
Lemma cancelled_worker_does_nothing_witness :
  Worker.run 1 worker (token_set file_upload_cancellation_token ready)
  = (Stopped, token_set file_upload_cancellation_token ready).
Proof.
  apply (cancelled_worker_does_nothing worker
           (token_set file_upload_cancellation_token ready) 0).
  vm_compute. reflexivity.
Defined.


(** ** A worker among the others *)

Section Pool.
Context `{!Runtime}.

Lemma upload_file_frame (up : SimpleStorage.t) (item : File.t) (w : World) r w' :
  SimpleStorage.upload_file up item w = (r, w') →
  tokens w' = tokens w ∧ queues w' = queues w ∧
  (length (uploads (trace w')) ≤ S (length (uploads (trace w))))%nat ∧
  joins (trace w') = joins (trace w).
Proof.
  unfold SimpleStorage.upload_file.
  destruct (clients w !! SimpleStorage.self up) as [c|].
  - destruct (s3_upload_file _ _ _ _ _); intros [= <- <-]; cbn;
      unfold uploads, joins; rewrite !List.filter_app, length_app; cbn;
      rewrite app_nil_r; repeat split; lia.
  - intros [= <- <-]. repeat split; lia.
Qed.

Lemma items_after_get (q : loc) (w : World) (item : File.t) (rest : list File.t) :
  items q w = item :: rest →
  items q (queue_get q w).2 = rest ∧
  tokens (queue_get q w).2 = tokens w ∧
  uploads (trace (queue_get q w).2) = uploads (trace w).
Proof.
  intros Hq. rewrite (queue_get_cons _ _ _ _ Hq). cbn.
  split; [|split].
  - unfold items. cbn. by rewrite lookup_insert_eq.
  - reflexivity.
  - unfold uploads. rewrite List.filter_app. cbn. by rewrite app_nil_r.
Qed.

Lemma iteration_failed_transfer (self : Worker.t) (w w' : World)
    (item : File.t) (rest : list File.t) (e : exn) :
  Worker._cancellation_token self ∉ tokens w →
  items (Worker._worker_queue self) w = item :: rest →
  SimpleStorage.upload_file (Worker._uploader self) item
    (queue_get (Worker._worker_queue self) w).2 = (Raise e, w') →
  Worker.iteration self w = (Crashed e, w').
Proof.
  intros Htok Hq Hup. unfold Worker.iteration.
  rewrite (is_set_false _ _ Htok).
  rewrite (queue_get_cons _ _ _ _ Hq) in *. cbn in Hup. by rewrite Hup.
Qed.

(** C2, as the program has it.  A pass in which [upload_file] raises
    does not call it again, and the file it took is gone from the queue.
    No [try] surrounds the call: the exception leaves [run], so this
    worker's loop is over, whatever fuel is left, and its thread is dead
    and makes no further pass.  The other threads of the pool are as they
    were, and the token is not set. *)
Theorem failed_transfer_ends_only_its_worker (threads : list Thread.t) (i : nat)
    (th : Thread.t) (w w' : World) (item : File.t) (rest : list File.t) (e : exn) :
  threads !! i = Some th →
  Thread.state th = Alive →
  Worker._cancellation_token (Thread.target th) ∉ tokens w →
  items (Worker._worker_queue (Thread.target th)) w = item :: rest →
  SimpleStorage.upload_file (Worker._uploader (Thread.target th)) item
    (queue_get (Worker._worker_queue (Thread.target th)) w).2 = (Raise e, w') →
  let threads' := <[i := Thread.with_state (Died e) th]> threads in
  pool_step i threads w = (threads', w') ∧
  (∀ fuel, Worker.run (S fuel) (Thread.target th) w = (Crashed e, w')) ∧
  pool_step i threads' w' = (threads', w') ∧
  (∀ j, j ≠ i → threads' !! j = threads !! j) ∧
  tokens w' = tokens w ∧
  items (Worker._worker_queue (Thread.target th)) w' = rest ∧
  (length (uploads (trace w')) ≤ S (length (uploads (trace w))))%nat.
Proof.
  intros Hi Halive Htok Hq Hup threads'.
  pose proof (iteration_failed_transfer _ _ _ _ _ _ Htok Hq Hup) as Hiter.
  destruct (upload_file_frame _ _ _ _ _ Hup) as (Htokens & Hqueues & Huploads & _).
  destruct (items_after_get _ _ _ _ Hq) as (Hrest & Htokens1 & Huploads1).
  split; [|split; [|split; [|split; [|split; [|split]]]]].
  - unfold pool_step, Thread.step. by rewrite Hi, Halive, Hiter.
  - intros fuel. cbn [Worker.run]. by rewrite Hiter.
  - unfold pool_step, threads'.
    rewrite list_lookup_insert_eq by (by eapply lookup_lt_Some).
    cbn. by rewrite list_insert_insert_eq.
  - intros j Hne. unfold threads'. by rewrite list_lookup_insert_ne.
  - by rewrite Htokens, Htokens1.
  - unfold items in *. by rewrite Hqueues.
  - by rewrite <- Huploads1.
Qed.

End Pool.

(** In [__main__] with a file that has no bucket at the head of the
    queue: the first thread dies of the refused upload, the second is
    untouched, and the second file is still queued. *)
Lemma failed_transfer_ends_only_its_worker_witness :
  pool_step 0 pool busy
  = (<[0 := {| Thread.target := worker; Thread.state := Died UploadError |}]> pool,
     refused) ∧
  items file_upload_queue refused = [carne_asada configuration "1.dat"].
Proof.
  destruct (failed_transfer_ends_only_its_worker pool 0
              {| Thread.target := worker; Thread.state := Alive |}
              busy refused (stray "0.dat") [carne_asada configuration "1.dat"]
              UploadError)
    as (Hstep & _ & _ & _ & _ & Hrest & _).
  - reflexivity.
  - reflexivity.
  - vm_compute. intros H. discriminate H.
  - reflexivity.
  - reflexivity.
  - split; [exact Hstep | exact Hrest].
Defined.

(** C2 as the specification has it fails: in the same pass the thread
    whose upload was refused is not running any more. *)
Lemma continues_after_failed_transfer_counterexample :
  ¬ @continues_after_failed_transfer decimal_runtime.
Proof.
  intros Hclaim.
  specialize (Hclaim {| Thread.target := worker; Thread.state := Alive |}
                     busy (stray "0.dat") [carne_asada configuration "1.dat"]
                     UploadError).
  assert (Thread.state
            (Thread.step {| Thread.target := worker; Thread.state := Alive |} busy).1
          = Died UploadError) as Hdied by reflexivity.
  rewrite Hclaim in Hdied.
  - discriminate Hdied.
  - reflexivity.
  - vm_compute. intros H. discriminate H.
  - reflexivity.
  - reflexivity.
Qed.

(** ** The manager *)

Example manager_of_main :
  Manager.__init__ configuration file_upload_queue file_upload_cancellation_token
                   storage_factory
  = Return manager.
Proof. reflexivity. Qed.

Section Prepare.
Context `{!Runtime}.





End Prepare.



(** ** Stopping *)

Section Stop.
Context `{!Runtime}.










End Stop.


(** ** More on configurations and files *)

Lemma from_properties_puts (properties : list (pyval * pyval)) :
  PropertiesConfig.from_properties properties = puts properties.
Proof.
  unfold PropertiesConfig.from_properties, puts.
  generalize PropertiesConfig.__init__.
  induction properties as [|prop properties IH]; intros c; [reflexivity|].
  cbn [foldl]. apply IH.
Qed.

Lemma foldl_put_dom (kvs : list (pyval * pyval)) (k : string) :
  ∀ c : PropertiesConfig.t,
    is_Some (PropertiesConfig._conf
               (foldl (λ conf kv, PropertiesConfig.put conf kv.1 kv.2) c kvs) !! k)
    ↔ is_Some (PropertiesConfig._conf c !! k) ∨ k ∈ (λ kv, str kv.1) <$> kvs.
Proof.
  induction kvs as [|kv kvs IH]; intros c.
  - cbn. split; [by left|]. intros [Hc|Hin]; [done|]. by apply elem_of_nil in Hin.
  - cbn [foldl]. rewrite IH, fmap_cons, elem_of_cons.
    cbn [PropertiesConfig.put PropertiesConfig._conf].
    rewrite lookup_insert_is_Some.
    assert (k = str kv.1 ↔ str kv.1 = k) as Hsym by (split; congruence).
    destruct (decide (str kv.1 = k)) as [Heq|Hne]; tauto.
Qed.

(** [from_properties] knows exactly the keys it was given, as strings: a
    [get] finds a value under [k] if and only if [k] is the [str] of the
    first component of some property. *)
Theorem from_properties_keys (properties : list (pyval * pyval)) (k : string) :
  is_Some (PropertiesConfig.get (PropertiesConfig.from_properties properties) (PyStr k))
  ↔ k ∈ (λ prop, str prop.1) <$> properties.
Proof.
  rewrite from_properties_puts. unfold puts. cbn. rewrite foldl_put_dom.
  cbn. rewrite lookup_empty. split; [|by right].
  intros [[? [=]]|Hin]; exact Hin.
Qed.

(** When a key occurs more than once among the properties, its last
    occurrence decides the value. *)
Theorem from_properties_last_wins (before after : list (pyval * pyval))
    (k v : pyval) :
  (∀ prop, prop ∈ after → str prop.1 ≠ str k) →
  PropertiesConfig.get
    (PropertiesConfig.from_properties (before ++ (k, v) :: after)) (PyStr (str k))
  = Some (str v).
Proof.
  intros Hafter. rewrite from_properties_puts. unfold puts.
  rewrite foldl_app. cbn [foldl].
  rewrite get_foldl_put_absent.
  - apply get_put_eq.
  - intros kv Hin [= Heq]. by apply (Hafter kv).
Qed.

Lemma from_properties_last_wins_witness :
  PropertiesConfig.get
    (PropertiesConfig.from_properties
       [ (PyStr "worker.threads", PyInt 7); (PyStr "worker.threads", PyInt 3);
         (PyStr "files.provider", PyStr "s3") ])
    (PyStr "worker.threads")
  = Some "3".
Proof.
  apply (from_properties_last_wins [(PyStr "worker.threads", PyInt 7)]
           [(PyStr "files.provider", PyStr "s3")] (PyStr "worker.threads") (PyInt 3)).
  intros prop Hin. apply list_elem_of_singleton in Hin. subst prop. discriminate.
Defined.

(** [put] identifies keys by their [str]: a second [put] under a key with
    the same string, of whatever type, replaces the first, and the
    configuration is the one the second [put] alone would give. *)
Theorem put_same_string_replaces (c : PropertiesConfig.t) (k1 k2 v1 v2 : pyval) :
  str k1 = str k2 →
  PropertiesConfig.put (PropertiesConfig.put c k1 v1) k2 v2
  = PropertiesConfig.put c k2 v2.
Proof.
  intros Heq. unfold PropertiesConfig.put. cbn. by rewrite Heq, insert_insert_eq.
Qed.

Lemma put_same_string_replaces_witness :
  PropertiesConfig.put
    (PropertiesConfig.put PropertiesConfig.__init__ (PyInt 1) (PyStr "one"))
    (PyStr "1") (PyBool false)
  = PropertiesConfig.put PropertiesConfig.__init__ (PyStr "1") (PyBool false).
Proof.
  apply (put_same_string_replaces PropertiesConfig.__init__
           (PyInt 1) (PyStr "1") (PyStr "one") (PyBool false)).
  reflexivity.
Defined.

(** [put]s under keys with different strings do not interfere: either
    order gives the same configuration. *)
Theorem put_different_strings_commute (c : PropertiesConfig.t) (k1 k2 v1 v2 : pyval) :
  str k1 ≠ str k2 →
  PropertiesConfig.put (PropertiesConfig.put c k1 v1) k2 v2
  = PropertiesConfig.put (PropertiesConfig.put c k2 v2) k1 v1.
Proof.
  intros Hne. unfold PropertiesConfig.put. cbn. f_equal.
  by apply insert_insert_ne.
Qed.

Lemma put_different_strings_commute_witness :
  PropertiesConfig.put
    (PropertiesConfig.put PropertiesConfig.__init__ (PyStr "a") (PyInt 1))
    (PyStr "b") (PyInt 2)
  = PropertiesConfig.put
      (PropertiesConfig.put PropertiesConfig.__init__ (PyStr "b") (PyInt 2))
      (PyStr "a") (PyInt 1).
Proof.
  apply (put_different_strings_commute PropertiesConfig.__init__
           (PyStr "a") (PyStr "b") (PyInt 1) (PyInt 2)).
  discriminate.
Defined.

Lemma last_char_app (s t : string) (c d : ascii) :
  last_char (s ++ String c t) d = last_char t c.
Proof. revert d. induction s as [|a s IH]; intros d; [reflexivity|]. cbn. apply IH. Qed.

Lemma last_char_app_app (p s t : string) (c d : ascii) :
  last_char (p ++ s ++ String c t) d = last_char t c.
Proof.
  revert d. induction p as [|a p IH]; intros d; [apply last_char_app|].
  cbn. apply IH.
Qed.

Lemma bucket_key_differ (s s' : string) :
  "files." ++ s ++ ".bucket" ≠ "files." ++ s' ++ ".key".
Proof.
  intros Heq.
  assert (last_char ("files." ++ s ++ ".bucket") "x"
          = last_char ("files." ++ s' ++ ".key") "x") as Hlast by (by rewrite Heq).
  rewrite !last_char_app_app in Hlast. discriminate Hlast.
Qed.

(** A file's bucket is what was [put] under [files.<category>.bucket],
    as a string, and such a [put] changes the key of no file, of whatever
    category. *)
Theorem put_bucket_sets_bucket_only (c : PropertiesConfig.t) (category b : pyval)
    (f : File.t) :
  let c' := PropertiesConfig.put c (PyStr ("files." ++ str category ++ ".bucket")) b in
  File.bucket {| File._config := c'; File._filepath := File._filepath f;
                 File._filetype := category; File._filename := File._filename f |}
  = Some (str b) ∧
  File.key {| File._config := c'; File._filepath := File._filepath f;
              File._filetype := File._filetype f; File._filename := File._filename f |}
  = File.key {| File._config := c; File._filepath := File._filepath f;
                File._filetype := File._filetype f; File._filename := File._filename f |}.
Proof.
  split.
  - unfold File.bucket. cbn. apply lookup_insert_eq.
  - unfold File.key. cbn [File._config File._filetype File._filename].
    rewrite get_put_ne; [reflexivity|].
    intros Heq.
    apply (bucket_key_differ (str category) (str (File._filetype f))).
    change (PyStr ("files." ++ str category ++ ".bucket")
            = PyStr ("files." ++ str (File._filetype f) ++ ".key")) in Heq.
    congruence.
Qed.

(** ** More on storage engines *)

Section Engines.
Context `{!Runtime}.

Lemma upload_file_closed (e : SimpleStorage.t) (file : File.t) (w : World) :
  clients w !! SimpleStorage.self e = None →
  SimpleStorage.upload_file e file w = (Raise AttributeError, w).
Proof. intros Hc. unfold SimpleStorage.upload_file. by rewrite Hc. Qed.

(** An engine without client cannot upload: after [close()], and on an
    engine constructed without client, [upload_file] raises
    [AttributeError] before any call to S3, and the world stays as it
    is. *)
Theorem upload_on_closed_engine_raises (e : SimpleStorage.t) (file : File.t)
    (w : World) (l : loc) (config : PropertiesConfig.t) :
  SimpleStorage.upload_file e file (SimpleStorage.close e w)
  = (Raise AttributeError, SimpleStorage.close e w) ∧
  SimpleStorage.upload_file (SimpleStorage.__init__ l config None w).1 file
    (SimpleStorage.__init__ l config None w).2
  = (Raise AttributeError, (SimpleStorage.__init__ l config None w).2).
Proof.
  split.
  - apply upload_file_closed, close_closes.
  - apply upload_file_closed. cbn. apply lookup_delete_eq.
Qed.


End Engines.

Lemma open_frame (e : SimpleStorage.t) (w : World) :
  queues (SimpleStorage.open e w) = queues w ∧
  tokens (SimpleStorage.open e w) = tokens w ∧
  next_client (SimpleStorage.open e w) = S (next_client w) ∧
  ∀ l, l ≠ SimpleStorage.self e →
       clients (SimpleStorage.open e w) !! l = clients w !! l.
Proof.
  destruct (clients w !! SimpleStorage.self e) as [c|] eqn:Hc.
  - rewrite (open_on_open _ _ _ Hc). cbn. repeat split.
    intros l Hne. by rewrite lookup_insert_ne.
  - rewrite (open_on_closed _ _ Hc). cbn. repeat split.
    intros l Hne. by rewrite lookup_insert_ne.
Qed.

Lemma close_frame (e : SimpleStorage.t) (w : World) :
  queues (SimpleStorage.close e w) = queues w ∧
  tokens (SimpleStorage.close e w) = tokens w ∧
  next_client (SimpleStorage.close e w) = next_client w ∧
  ∀ l, l ≠ SimpleStorage.self e →
       clients (SimpleStorage.close e w) !! l = clients w !! l.
Proof.
  unfold SimpleStorage.close.
  destruct (clients w !! SimpleStorage.self e) as [c|] eqn:Hc; [|done].
  cbn. repeat split. intros l Hne. by rewrite lookup_delete_ne.
Qed.

(** [open()] and [close()] of one engine touch nothing but that engine's
    client: the queues, the tokens and the clients of all other engines
    are as before. *)
Theorem open_close_touch_own_client_only (e : SimpleStorage.t) (w : World) (l : loc) :
  l ≠ SimpleStorage.self e →
  clients (SimpleStorage.open e w) !! l = clients w !! l ∧
  clients (SimpleStorage.close e w) !! l = clients w !! l ∧
  queues (SimpleStorage.open e w) = queues w ∧
  queues (SimpleStorage.close e w) = queues w ∧
  tokens (SimpleStorage.open e w) = tokens w ∧
  tokens (SimpleStorage.close e w) = tokens w.
Proof.
  intros Hne.
  destruct (open_frame e w) as (Hq & Ht & _ & Hc).
  destruct (close_frame e w) as (Hq' & Ht' & _ & Hc').
  repeat split; auto.
Qed.

Lemma open_close_touch_own_client_only_witness :
  clients (SimpleStorage.open engine_a ready) !! SimpleStorage.self storage
  = clients ready !! SimpleStorage.self storage.
Proof.
  apply (open_close_touch_own_client_only engine_a ready (SimpleStorage.self storage)).
  discriminate.
Defined.

Lemma made_app (tr tr' : list event) : made (tr ++ tr') = made tr + made tr'.
Proof. unfold made. by rewrite List.filter_app, length_app. Qed.

Lemma closed_app (tr tr' : list event) : closed (tr ++ tr') = closed tr + closed tr'.
Proof. unfold closed. by rewrite List.filter_app, length_app. Qed.





(** ** More on the factory *)

(** Registrations under different identifiers do not interfere: either
    order gives the same factory. *)
Theorem register_commutes (f : StorageFactory.t) (a b : SimpleStorage.t) :
  SimpleStorage.identifier a ≠ SimpleStorage.identifier b →
  StorageFactory.register (StorageFactory.register f a) b
  = StorageFactory.register (StorageFactory.register f b) a.
Proof.
  intros Hne. unfold StorageFactory.register. cbn. f_equal.
  by apply insert_insert_ne.
Qed.

Lemma register_commutes_witness :
  StorageFactory.register (StorageFactory.register storage_factory engine_a) engine_b
  = StorageFactory.register (StorageFactory.register storage_factory engine_b) engine_a.
Proof. apply register_commutes. discriminate. Defined.



(** ** More on workers *)

Section Workers.
Context `{!Runtime}.

Lemma build_unregistered (f : StorageFactory.t) (w : World) :
  (∀ name,
     PropertiesConfig.get (StorageFactory._config f) (PyStr "files.provider")
     = Some name →
     StorageFactory._options f !! name = None) →
  StorageFactory.build f w = (Raise NotImplementedError, w).
Proof.
  intros Hnone. unfold StorageFactory.build.
  destruct (PropertiesConfig.get _ _) as [name|] eqn:Hprovider; cbn.
  - by rewrite (Hnone name).
  - reflexivity.
Qed.








End Workers.




(** ** More on the pool *)

Lemma undisturbed_refl (w : World) : undisturbed w w.
Proof. unfold undisturbed. by do 6 (split; [done|]). Qed.

Lemma undisturbed_trans (w1 w2 w3 : World) :
  undisturbed w1 w2 → undisturbed w2 w3 → undisturbed w1 w3.
Proof.
  intros (Ht & Hc & Hn & Hm & Hd & Ho & Hq) (Ht' & Hc' & Hn' & Hm' & Hd' & Ho' & Hq').
  unfold undisturbed. do 5 (split; [congruence|]). split.
  - intros l. by rewrite Ho'.
  - intros q. etrans; [apply Hq' | apply Hq].
Qed.

Lemma undisturbed_log (ev : event) (w : World) :
  (∀ l, is_open_of l ev = false) →
  is_client_made ev = false → is_client_closed ev = false →
  undisturbed w (log ev w).
Proof.
  intros Hopen Hmade Hclosed. unfold undisturbed, log. cbn [tokens clients next_client trace].
  do 3 (split; [reflexivity|]). split; [|split; [|split]].
  - rewrite made_app. unfold made at 2. cbn. rewrite Hmade. cbn. lia.
  - rewrite closed_app. unfold closed at 2. cbn. rewrite Hclosed. cbn. lia.
  - intros l. rewrite opens_app. unfold opens at 2. cbn. rewrite Hopen. cbn. lia.
  - done.
Qed.

Lemma undisturbed_set_queue (q : loc) (item : File.t) (rest : list File.t) (w : World) :
  items q w = item :: rest → undisturbed w (set_queue q rest w).
Proof.
  intros Hq. unfold undisturbed, set_queue. cbn [tokens clients next_client trace].
  do 6 (split; [reflexivity|]). intros q'. unfold items in *. cbn.
  destruct (decide (q = q')) as [<-|Hne].
  - rewrite lookup_insert_eq, Hq. cbn. by apply suffix_cons_r.
  - by rewrite lookup_insert_ne.
Qed.

Lemma queue_get_undisturbed (q : loc) (w : World) :
  undisturbed w (queue_get q w).2.
Proof.
  unfold queue_get. destruct (items q w) as [|item rest] eqn:Hq; cbn [snd].
  - by apply undisturbed_log.
  - eapply undisturbed_trans; [by eapply undisturbed_set_queue|].
    by apply undisturbed_log.
Qed.

Lemma sleep_undisturbed (secs : Q) (w : World) : undisturbed w (sleep secs w).2.
Proof.
  unfold sleep. destruct (Qle_bool 0 secs); cbn [snd].
  - by apply undisturbed_log.
  - apply undisturbed_refl.
Qed.

Lemma sleep_uploads (secs : Q) (w : World) :
  uploads (trace (sleep secs w).2) = uploads (trace w) ∧
  queues (sleep secs w).2 = queues w.
Proof.
  unfold sleep. destruct (Qle_bool 0 secs); cbn [snd]; [|done].
  unfold uploads. cbn. rewrite List.filter_app. cbn. by rewrite app_nil_r.
Qed.

Section PoolInvariants.
Context `{!Runtime}.

Lemma upload_file_undisturbed (up : SimpleStorage.t) (item : File.t) (w : World) :
  undisturbed w (SimpleStorage.upload_file up item w).2.
Proof.
  unfold SimpleStorage.upload_file.
  destruct (clients w !! SimpleStorage.self up) as [c|]; [|apply undisturbed_refl].
  destruct (s3_upload_file _ _ _ _ _); cbn [snd]; by apply undisturbed_log.
Qed.

Lemma iteration_undisturbed (self : Worker.t) (w : World) :
  undisturbed w (Worker.iteration self w).2.
Proof.
  unfold Worker.iteration. destruct (is_set _ w); [apply undisturbed_refl|].
  pose proof (queue_get_undisturbed (Worker._worker_queue self) w) as Hget.
  destruct (queue_get _ w) as [item w1]. cbn [snd] in Hget.
  assert (undisturbed w1
            (match item with
             | Some item => SimpleStorage.upload_file (Worker._uploader self) item w1
             | None => (Return tt, w1)
             end).2) as Hup.
  { destruct item; [apply upload_file_undisturbed | apply undisturbed_refl]. }
  destruct (match item with Some _ => _ | None => _ end) as [r w2]. cbn [snd] in Hup.
  destruct r as [[]|e]; cbn [snd]; [|by eapply undisturbed_trans].
  pose proof (sleep_undisturbed (Worker._timeout self) w2) as Hsleep.
  destruct (sleep _ w2) as [[[]|e] w3]; cbn [snd] in *;
    eapply undisturbed_trans; [| exact Hsleep | | exact Hsleep];
    by eapply undisturbed_trans.
Qed.

Lemma iteration_conserves (self : Worker.t) (w : World) :
  (length (uploads (trace (Worker.iteration self w).2))
   + length (items (Worker._worker_queue self) (Worker.iteration self w).2)
   ≤ length (uploads (trace w)) + length (items (Worker._worker_queue self) w))%nat ∧
  ∀ q, q ≠ Worker._worker_queue self →
       items q (Worker.iteration self w).2 = items q w.
Proof.
  unfold Worker.iteration. destruct (is_set _ w); [by cbn|].
  set (q0 := Worker._worker_queue self).
  assert ((length (uploads (trace (queue_get q0 w).2))
           + length (items q0 (queue_get q0 w).2)
           + (if (queue_get q0 w).1 is Some _ then 1 else 0)
           = length (uploads (trace w)) + length (items q0 w))%nat ∧
          ∀ q, q ≠ q0 → items q (queue_get q0 w).2 = items q w) as Hget.
  { unfold queue_get. destruct (items q0 w) as [|item rest] eqn:Hq;
      cbn [fst snd]; unfold uploads, items in *; cbn;
      rewrite List.filter_app; cbn; rewrite app_nil_r.
    - rewrite Hq. cbn. split; [lia|done].
    - rewrite lookup_insert_eq. cbn. split; [lia|].
      intros q Hne. by rewrite lookup_insert_ne. }
  destruct (queue_get q0 w) as [item w1]. cbn [fst snd] in Hget.
  destruct Hget as [Hcount Hother].
  set (up := match item with
             | Some item => SimpleStorage.upload_file (Worker._uploader self) item w1
             | None => (Return tt, w1)
             end).
  assert ((length (uploads (trace up.2))
           ≤ length (uploads (trace w1)) + (if item is Some _ then 1 else 0))%nat ∧
          queues up.2 = queues w1) as Hup.
  { subst up. destruct item as [item|]; cbn [snd]; [|split; [lia|done]].
    destruct (SimpleStorage.upload_file _ item w1) as [r w2] eqn:Hup.
    destruct (upload_file_frame _ _ _ _ _ Hup) as (_ & Hqs & Hlen & _).
    cbn [snd]. split; [lia|done]. }
  clearbody up. destruct up as [r w2].
  cbn [snd] in Hup. destruct Hup as [Hlen Hqs].
  assert (∀ q, items q w2 = items q w1) as Hitems.
  { intros q. unfold items. by rewrite Hqs. }
  destruct r as [[]|e]; cbn [snd].
  - destruct (sleep_uploads (Worker._timeout self) w2) as [Hsu Hsq].
    destruct (sleep _ w2) as [[[]|e] w3]; cbn [snd] in *;
      (assert (∀ q, items q w3 = items q w2) as Hitems'
         by (intros q; unfold items; by rewrite Hsq));
      rewrite Hsu, !Hitems', !Hitems; (split; [lia|]);
      intros q Hne; rewrite Hitems', Hitems; by apply Hother.
  - rewrite !Hitems. split; [lia|]. intros q Hne. rewrite Hitems. by apply Hother.
Qed.

Lemma thread_step_target (th : Thread.t) (w : World) :
  Thread.target (Thread.step th w).1 = Thread.target th.
Proof.
  unfold Thread.step. destruct (Thread.state th); try reflexivity.
  by destruct (Worker.iteration _ w) as [[| |e] w'].
Qed.

Lemma thread_step_undisturbed (th : Thread.t) (w : World) :
  undisturbed w (Thread.step th w).2.
Proof.
  unfold Thread.step. destruct (Thread.state th); try apply undisturbed_refl.
  pose proof (iteration_undisturbed (Thread.target th) w) as Hiter.
  by destruct (Worker.iteration _ w) as [[| |e] w'].
Qed.

Lemma thread_step_conserves (th : Thread.t) (w : World) :
  (length (uploads (trace (Thread.step th w).2))
   + length (items (Worker._worker_queue (Thread.target th)) (Thread.step th w).2)
   ≤ length (uploads (trace w))
     + length (items (Worker._worker_queue (Thread.target th)) w))%nat.
Proof.
  unfold Thread.step. destruct (Thread.state th); try (cbn; lia).
  destruct (iteration_conserves (Thread.target th) w) as [Hiter _].
  by destruct (Worker.iteration _ w) as [[| |e] w'].
Qed.

(** Whatever the schedule, the threads of a pool leave alone what is not
    theirs: no pass sets or clears a token, opens or closes an engine or
    makes a client, and no pass puts anything into a queue or takes
    from anywhere but its head. *)
Theorem pool_run_undisturbed (schedule : list nat) (threads : list Thread.t)
    (w : World) :
  undisturbed w (pool_run schedule threads w).2.
Proof.
  revert threads w. induction schedule as [|i schedule IH]; intros threads w.
  - apply undisturbed_refl.
  - cbn [pool_run].
    assert (undisturbed w (pool_step i threads w).2) as Hstep.
    { unfold pool_step. destruct (threads !! i) as [th|]; [|apply undisturbed_refl].
      pose proof (thread_step_undisturbed th w) as Hth.
      by destruct (Thread.step th w). }
    destruct (pool_step i threads w) as [threads1 w1]. cbn [snd] in Hstep.
    eapply undisturbed_trans; [exact Hstep | apply IH].
Qed.

(** No file is uploaded twice.  When all threads of a pool poll the
    queue [q], then over any schedule the number of [upload_file] calls
    made plus the number of files still queued does not grow: every
    upload is paid for by a file taken from the queue. *)
Theorem pool_run_uploads_only_what_it_takes (q : loc) (schedule : list nat)
    (threads : list Thread.t) (w : World) :
  Forall (λ th, Worker._worker_queue (Thread.target th) = q) threads →
  (length (uploads (trace (pool_run schedule threads w).2))
   + length (items q (pool_run schedule threads w).2)
   ≤ length (uploads (trace w)) + length (items q w))%nat.
Proof.
  revert threads w. induction schedule as [|i schedule IH]; intros threads w Hall.
  - cbn. lia.
  - cbn [pool_run].
    assert ((length (uploads (trace (pool_step i threads w).2))
             + length (items q (pool_step i threads w).2)
             ≤ length (uploads (trace w)) + length (items q w))%nat ∧
            Forall (λ th, Worker._worker_queue (Thread.target th) = q)
                   (pool_step i threads w).1) as [Hstep Hall'].
    { unfold pool_step. destruct (threads !! i) as [th|] eqn:Hi; [|by split].
      pose proof (thread_step_conserves th w) as Hth.
      pose proof (thread_step_target th w) as Htarget.
      pose proof (Forall_lookup_1 _ _ _ _ Hall Hi) as Hq. cbn in Hq.
      destruct (Thread.step th w) as [th' w']. cbn [fst snd] in *.
      rewrite Hq in Hth. split; [exact Hth|].
      apply Forall_insert; [exact Hall|]. by rewrite Htarget. }
    destruct (pool_step i threads w) as [threads1 w1]. cbn [fst snd] in *.
    specialize (IH threads1 w1 Hall'). lia.
Qed.

Lemma thread_step_cancelled (th : Thread.t) (w : World) :
  Worker._cancellation_token (Thread.target th) ∈ tokens w →
  Thread.step th w = (settle th, w).
Proof.
  intros Htok. unfold Thread.step, settle.
  destruct (Thread.state th); try reflexivity.
  by rewrite iteration_cancelled.
Qed.

Lemma pool_step_cancelled (i : nat) (threads : list Thread.t) (w : World) :
  Forall (λ th, Worker._cancellation_token (Thread.target th) ∈ tokens w) threads →
  pool_step i threads w = (alter settle i threads, w).
Proof.
  intros Hall. unfold pool_step.
  destruct (threads !! i) as [th|] eqn:Hi.
  - rewrite thread_step_cancelled by apply (Forall_lookup_1 _ _ _ _ Hall Hi).
    f_equal. apply list_eq. intros j. destruct (decide (i = j)) as [<-|Hne].
    + rewrite list_lookup_insert_eq by (by eapply lookup_lt_Some).
      by rewrite list_lookup_alter_eq, Hi.
    + by rewrite list_lookup_insert_ne, list_lookup_alter_ne.
  - f_equal. apply list_eq. intros j. destruct (decide (i = j)) as [<-|Hne].
    + by rewrite list_lookup_alter_eq, Hi.
    + by rewrite list_lookup_alter_ne.
Qed.

Lemma cancelled_alter (i : nat) (threads : list Thread.t) (w : World) :
  Forall (λ th, Worker._cancellation_token (Thread.target th) ∈ tokens w) threads →
  Forall (λ th, Worker._cancellation_token (Thread.target th) ∈ tokens w)
         (alter settle i threads).
Proof.
  intros Hall. apply Forall_alter; [exact Hall|].
  intros th _ Htok. unfold settle. by destruct (Thread.state th).
Qed.

Lemma pool_run_cancelled (schedule : list nat) :
  ∀ (threads : list Thread.t) (w : World),
    Forall (λ th, Worker._cancellation_token (Thread.target th) ∈ tokens w) threads →
    pool_run schedule threads w
    = (foldl (λ ths i, alter settle i ths) threads schedule, w).
Proof.
  induction schedule as [|i schedule IH]; intros threads w Hall; [reflexivity|].
  cbn [pool_run foldl]. rewrite (pool_step_cancelled _ _ _ Hall).
  apply IH. by apply cancelled_alter.
Qed.

End PoolInvariants.

Lemma settle_settle (th : Thread.t) : settle (settle th) = settle th.
Proof. unfold settle. destruct th as [target []]; reflexivity. Qed.

Lemma settled_lookup (schedule : list nat) :
  ∀ (threads : list Thread.t) (i : nat),
    foldl (λ ths i, alter settle i ths) threads schedule !! i
    = (if bool_decide (i ∈ schedule) then settle else id) <$> threads !! i.
Proof.
  induction schedule as [|j schedule IH]; intros threads i.
  - cbn. by destruct (threads !! i).
  - cbn [foldl]. rewrite IH.
    destruct (decide (j = i)) as [->|Hne].
    + rewrite list_lookup_alter_eq.
      rewrite (bool_decide_eq_true_2 (i ∈ i :: schedule)) by left.
      destruct (threads !! i) as [th|]; [|reflexivity].
      cbn. case_bool_decide; cbn; by rewrite ?settle_settle.
    + rewrite list_lookup_alter_ne by done.
      rewrite (bool_decide_ext (i ∈ j :: schedule) (i ∈ schedule)); [reflexivity|].
      rewrite elem_of_cons. split; [|by right]. by intros [->|Hin].
Qed.

(** ** Cancellation *)

Section Cancellation.
Context `{!Runtime}.

(** Once the token is set nothing more is taken or uploaded: over any
    schedule the threads whose token it is leave the world exactly as it
    is, and each thread that gets a pass while running has returned;
    the others are as they were. *)
Theorem cancelled_pool_takes_nothing (schedule : list nat)
    (threads : list Thread.t) (w : World) :
  cancelled threads w →
  (pool_run schedule threads w).2 = w ∧
  ∀ i, (pool_run schedule threads w).1 !! i
       = (if bool_decide (i ∈ schedule) then settle else id) <$> threads !! i.
Proof.
  intros Hall. rewrite (pool_run_cancelled schedule threads w Hall). cbn [fst snd].
  split; [reflexivity|]. intros i. apply settled_lookup.
Qed.

End Cancellation.

Lemma cancelled_pool_takes_nothing_witness :
  (pool_run [1; 0; 1] pool (token_set file_upload_cancellation_token busy)).2
  = token_set file_upload_cancellation_token busy.
Proof.
  apply (cancelled_pool_takes_nothing [1; 0; 1] pool
           (token_set file_upload_cancellation_token busy)).
  unfold cancelled, pool. repeat (constructor; [vm_compute; reflexivity|]). constructor.
Defined.

Lemma pool_run_uploads_only_what_it_takes_witness :
  (length (uploads (trace (pool_run [0; 1; 1; 0] pool loaded).2))
   + length (items file_upload_queue (pool_run [0; 1; 1; 0] pool loaded).2)
   ≤ 0 + 3)%nat.
Proof.
  apply (pool_run_uploads_only_what_it_takes file_upload_queue [0; 1; 1; 0] pool loaded).
  unfold pool. repeat (constructor; [reflexivity|]). constructor.
Defined.

(** ** More on the manager *)

Section Managers.
Context `{!Runtime}.

(** A worker key configured as the empty string counts as absent: the
    [or] takes the default, and [int] and [float] are not asked. *)
Theorem empty_string_counts_as_absent (config : PropertiesConfig.t) (q tok : loc)
    (factory : StorageFactory.t) :
  (PropertiesConfig.get config (PyStr "worker.threads") = Some "" →
   PropertiesConfig.get config (PyStr "worker.join.timeout") = Some "" →
   ∃ m, Manager.__init__ config q tok factory = Return m ∧
        Manager._number_of_threads m = 1%Z ∧ Manager._join_timeout m = 60%Z) ∧
  (PropertiesConfig.get config (PyStr "worker.timeout") = Some "" →
   Worker.timeout_of config = Some (1 # 5)%Q).
Proof.
  split.
  - intros Hthreads Hjoin. unfold Manager.__init__, Manager.int_of.
    rewrite Hthreads, Hjoin. cbn. eexists. by repeat split.
  - intros Htimeout. unfold Worker.timeout_of. by rewrite Htimeout.
Qed.

Lemma prepare_loop_unregistered (n : nat) (m : Manager.t) (w : World) :
  (∀ name,
     PropertiesConfig.get (StorageFactory._config (Manager._factory m))
       (PyStr "files.provider") = Some name →
     StorageFactory._options (Manager._factory m) !! name = None) →
  Manager.prepare_loop (S n) m w = (Raise NotImplementedError, m, w).
Proof.
  intros Hnone. cbn [Manager.prepare_loop]. unfold Worker.__init__.
  by rewrite build_unregistered.
Qed.

(** When no engine is registered under the configured provider,
    [prepare] with a positive number of threads raises
    [NotImplementedError] with the world untouched; the threads the
    manager had are gone all the same, cleared before the first
    worker was made. *)
Theorem prepare_unregistered_clears_and_raises (m : Manager.t) (w : World) :
  (0 < Manager._number_of_threads m)%Z →
  (∀ name,
     PropertiesConfig.get (StorageFactory._config (Manager._factory m))
       (PyStr "files.provider") = Some name →
     StorageFactory._options (Manager._factory m) !! name = None) →
  Manager.prepare m w = (Raise NotImplementedError, Manager.with_workers [] m, w).
Proof.
  intros Hpos Hnone. unfold Manager.prepare.
  destruct (Z.to_nat (Manager._number_of_threads m)) as [|n] eqn:Hn; [lia|].
  by apply prepare_loop_unregistered.
Qed.

(** With a number of threads that is not positive, [prepare] makes no
    worker and calls [build()] not once: it succeeds, whatever the
    factory holds, and leaves the manager without threads and the
    world untouched. *)
Theorem prepare_without_threads (m : Manager.t) (w : World) :
  (Manager._number_of_threads m ≤ 0)%Z →
  Manager.prepare m w = (Return tt, Manager.with_workers [] m, w).
Proof.
  intros Hle. unfold Manager.prepare.
  by replace (Z.to_nat (Manager._number_of_threads m)) with 0 by lia.
Qed.






End Managers.

Lemma empty_string_counts_as_absent_witness :
  (∃ m, Manager.__init__ blank file_upload_queue file_upload_cancellation_token
          storage_factory = Return m ∧
        Manager._number_of_threads m = 1%Z ∧ Manager._join_timeout m = 60%Z) ∧
  Worker.timeout_of blank = Some (1 # 5)%Q.
Proof.
  destruct (@empty_string_counts_as_absent decimal_runtime blank file_upload_queue
              file_upload_cancellation_token storage_factory) as [Hmanager Hworker].
  split; [apply Hmanager; reflexivity | apply Hworker; reflexivity].
Defined.

Lemma prepare_unregistered_clears_and_raises_witness :
  Manager.prepare orphaned busy
  = (Raise NotImplementedError, Manager.with_workers [] orphaned, busy).
Proof.
  apply (prepare_unregistered_clears_and_raises orphaned busy).
  - reflexivity.
  - intros name Hname. reflexivity.
Defined.

Lemma prepare_without_threads_witness :
  Manager.prepare unmanned busy = (Return tt, Manager.with_workers [] unmanned, busy).
Proof. apply (prepare_without_threads unmanned busy). discriminate. Defined.



(** ** Starting and stopping *)

Lemma start_loop_initial (todo : list Thread.t) :
  ∀ done : list Thread.t,
    all_in Initial todo →
    Manager.start_loop todo done
    = (Return tt, (done ++ (Thread.with_state Alive <$> todo))%list).
Proof.
  induction todo as [|th todo IH]; intros done Hall.
  - cbn. by rewrite app_nil_r.
  - apply Forall_cons in Hall as [Hth Htodo].
    cbn [Manager.start_loop]. unfold Thread.start. rewrite Hth.
    rewrite IH by done. cbn. by rewrite <- app_assoc.
Qed.

Lemma start_loop_stuck (pre : list Thread.t) (th : Thread.t) (post : list Thread.t) :
  ∀ done : list Thread.t,
    all_in Initial pre →
    Thread.state th ≠ Initial →
    Manager.start_loop (pre ++ th :: post) done
    = (Raise RuntimeError,
       (done ++ (Thread.with_state Alive <$> pre) ++ th :: post)%list).
Proof.
  induction pre as [|th0 pre IH]; intros done Hall Hth.
  - cbn. unfold Thread.start. by destruct (Thread.state th).
  - apply Forall_cons in Hall as [Hth0 Hpre].
    cbn [app Manager.start_loop]. unfold Thread.start at 1. rewrite Hth0.
    rewrite IH by done. cbn. by rewrite <- app_assoc.
Qed.

(** [start] on threads that were never started sets every one of them
    running and changes nothing else: same workers, same order. *)
Theorem start_sets_all_running (m : Manager.t) :
  all_in Initial (Manager._workers m) →
  Manager.start m
  = (Return tt,
     Manager.with_workers (Thread.with_state Alive <$> Manager._workers m) m) ∧
  all_in Alive (Manager.start m).2.(Manager._workers) ∧
  Thread.target <$> (Manager.start m).2.(Manager._workers)
  = Thread.target <$> Manager._workers m.
Proof.
  intros Hall.
  assert (Manager.start m
          = (Return tt,
             Manager.with_workers (Thread.with_state Alive <$> Manager._workers m) m))
    as Hstart.
  { unfold Manager.start. by rewrite (start_loop_initial _ [] Hall). }
  split; [exact Hstart|]. rewrite Hstart. cbn. split.
  - unfold all_in. apply Forall_fmap. by apply Forall_true.
  - rewrite <- list_fmap_compose. by apply list_fmap_ext.
Qed.

(** Threads start once.  When [start] meets a thread that was already
    started it raises [RuntimeError] there: the threads before it, all
    new, are now running, and those after it were not looked at. *)
Theorem start_raises_at_started_thread (m : Manager.t) (pre : list Thread.t)
    (th : Thread.t) (post : list Thread.t) :
  Manager._workers m = (pre ++ th :: post)%list →
  all_in Initial pre →
  Thread.state th ≠ Initial →
  Manager.start m
  = (Raise RuntimeError,
     Manager.with_workers ((Thread.with_state Alive <$> pre) ++ th :: post) m).
Proof.
  intros Hworkers Hpre Hth. unfold Manager.start.
  by rewrite Hworkers, (start_loop_stuck pre th post [] Hpre Hth).
Qed.

(** So a second [start] of a pool that has threads fails and changes
    nothing. *)
Theorem start_twice_raises (m : Manager.t) :
  Manager._workers m ≠ [] →
  all_in Initial (Manager._workers m) →
  ∃ m1, Manager.start m = (Return tt, m1) ∧
        Manager.start m1 = (Raise RuntimeError, m1).
Proof.
  intros Hne Hall. eexists. split.
  - unfold Manager.start. by rewrite (start_loop_initial _ [] Hall).
  - destruct (Manager._workers m) as [|th rest] eqn:Hworkers; [done|].
    unfold Manager.start. cbn [Manager._workers Manager.with_workers fmap list_fmap].
    change (Thread.with_state Alive th :: list_fmap _ _ (Thread.with_state Alive) rest)
      with ([] ++ Thread.with_state Alive th :: (Thread.with_state Alive <$> rest))%list.
    rewrite (start_loop_stuck [] _ _ []); [reflexivity | constructor | discriminate].
Qed.

Section StopEarly.
Context `{!Runtime}.

(** [stop] before [start]: when the first thread was never started, its
    [join] raises [RuntimeError]; no thread is joined and manager and
    world are as they were. *)
Theorem stop_before_start_raises (waiting : nat → list nat) (m : Manager.t)
    (w : World) (th : Thread.t) (rest : list Thread.t) :
  Manager._workers m = th :: rest →
  Thread.state th = Initial →
  Manager.stop waiting m w = (Raise RuntimeError, m, w).
Proof.
  intros Hworkers Hth. unfold Manager.stop. rewrite Hworkers.
  cbn [length seq Manager.stop_loop]. unfold Manager.join. cbn. rewrite Hth.
  rewrite <- Hworkers. by destruct m.
Qed.

End StopEarly.

Lemma start_sets_all_running_witness :
  Manager.start prepared_pair
  = (Return tt, Manager.with_workers pool prepared_pair).
Proof.
  destruct (start_sets_all_running prepared_pair) as (Hstart & _).
  - unfold all_in. repeat (constructor; [reflexivity|]). constructor.
  - exact Hstart.
Defined.

Lemma start_raises_at_started_thread_witness :
  Manager.start
    (Manager.with_workers [fresh; Thread.with_state Returned fresh; fresh]
       prepared_pair)
  = (Raise RuntimeError,
     Manager.with_workers
       [Thread.with_state Alive fresh; Thread.with_state Returned fresh; fresh]
       prepared_pair).
Proof.
  apply (start_raises_at_started_thread
           (Manager.with_workers
              [fresh; Thread.with_state Returned fresh; fresh] prepared_pair)
           [fresh] (Thread.with_state Returned fresh) [fresh]).
  - reflexivity.
  - unfold all_in. repeat (constructor; [reflexivity|]). constructor.
  - discriminate.
Defined.

Lemma start_twice_raises_witness :
  ∃ m1, Manager.start prepared_pair = (Return tt, m1) ∧
        Manager.start m1 = (Raise RuntimeError, m1).
Proof.
  apply (start_twice_raises prepared_pair).
  - discriminate.
  - unfold all_in. repeat (constructor; [reflexivity|]). constructor.
Defined.

Lemma stop_before_start_raises_witness :
  Manager.stop (λ _, []) prepared_pair ready = (Raise RuntimeError, prepared_pair, ready).
Proof.
  apply (stop_before_start_raises (λ _, []) prepared_pair ready fresh [fresh]);
    reflexivity.
Defined.

(** ** From [prepare] to [stop] *)




Section Lifecycle.
Context `{!Runtime}.



End Lifecycle.

